(** * Employee dashboard: cell renderers, value formatters and the
      dynamic page size computation of [src/components/Dashboard.tsx].

    The development is a shallow embedding.  JavaScript values, React
    elements and the browser facilities used by the component are modelled
    first, then the functions of [Dashboard.tsx] are transcribed one by one,
    and finally the properties of the specification are stated and proved. *)

From Stdlib Require Import String Ascii List ZArith Lia Bool DecimalString.
From ExtLib Require Import Structures.Monad Structures.MonadState.
From ExtLib Require Import Data.Monads.StateMonad.
Import ListNotations.
Import MonadNotation.

Local Open Scope string_scope.
Local Open Scope Z_scope.
Local Open Scope monad_scope.

(* ===================================================================== *)
(** ** JavaScript numbers, as far as the page size arithmetic needs them *)
(* ===================================================================== *)

(** The layout metrics read by the component ([clientHeight], the theme's
    [rowHeight]) are integral pixel counts, so finite numbers are carried by
    [Z].  The three non-finite IEEE values are kept, because a division by
    zero produces them and [Math.max] propagates them. *)
Module JSNumber.

Inductive t : Type :=
| Fin (z : Z)
| PosInf
| NegInf
| NaN.

(** [Math.floor(a / r)] for integral [a] and [r].  For [r <> 0] the
    real quotient is rounded towards minus infinity, which is what [Z.div]
    does for either sign of the divisor; [a / 0] is [Infinity],
    [-Infinity] or [NaN] according to the sign of [a], and [Math.floor]
    leaves these unchanged. *)
Definition floor_div (a r : Z) : t :=
  if r =? 0 then
    if 0 <? a then PosInf else if a <? 0 then NegInf else NaN
  else Fin (a / r).

(** [Math.max(x, y)]. *)
Definition max (x y : t) : t :=
  match x, y with
  | NaN, _ | _, NaN => NaN
  | PosInf, _ | _, PosInf => PosInf
  | NegInf, v | v, NegInf => v
  | Fin a, Fin b => Fin (Z.max a b)
  end.

(** [x || d] where [x] is a number or [undefined]: the falsy readings
    ([undefined] and [0]) select the default. *)
Definition or_default (x : option Z) (d : Z) : Z :=
  match x with
  | Some v => if v =? 0 then d else v
  | None => d
  end.

End JSNumber.

(* ===================================================================== *)
(** ** Host environment                                                  *)
(* ===================================================================== *)

(** What the JavaScript engine and its locale data supply.  None of it is
    part of the repository, so it is a parameter of the development. *)
Class Host : Type := {
  (** the values of type [number] stored in a record field *)
  number : Type;
  (** the time value of a valid [Date] *)
  time : Type;
  (** [Number.prototype.toLocaleString] *)
  Number_toLocaleString : number -> string;
  (** [Number.prototype.toFixed], with its digit count *)
  Number_toFixed : number -> nat -> string;
  (** the joining step of [Array.prototype.toLocaleString]: the texts of
      the elements, separated by the locale's list separator *)
  Array_toLocaleString : list string -> string;
  (** [Date.parse]; [None] is the [NaN] time value of an invalid date *)
  Date_parse : string -> option time;
  (** [Date.prototype.toLocaleDateString] on a valid date *)
  Date_format : time -> string
}.

(** Exceptions raised by the engine. *)
Inductive JSError : Type :=
| TypeError.

(** Outcome of evaluating an expression that may throw. *)
Inductive Result (A : Type) : Type :=
| Ok (a : A)
| Throw (e : JSError).

Arguments Ok {A} a.
Arguments Throw {A} e.

(** A field value as the skills and manager columns look at it: an array
    of strings, or a value that is not an array.  These columns only test
    [Array.isArray] on a value that is not an array, so an object is one
    opaque constant here; an array whose elements are not strings is
    outside this type (see [Json] for arbitrary values). *)
Inductive Value `{Host} : Type :=
| VUndefined
| VNull
| VBool (b : bool)
| VNumber (n : number)
| VString (s : string)
| VArray (l : list string)
| VObject.

(** An arbitrary field value of the data set: [undefined] for a field
    that is missing, or a value produced by parsing JSON.  The entries of
    an object are its own data properties, in the order of the text; no
    entry is callable. *)
#[warning="-register-all"]
Inductive Json `{Host} : Type :=
| JUndefined
| JNull
| JBool (b : bool)
| JNumber (n : number)
| JString (s : string)
| JArray (elements : list Json)
| JObject (entries : list (string * Json)).

(* ===================================================================== *)
(** ** React elements                                                    *)
(* ===================================================================== *)

#[warning="-register-all"]
Inductive Node : Type :=
| Text (s : string)
| Element (tag : string) (key : option nat)
          (props : list (string * string)) (children : list Node).

(** The text a rendered node contains, in document order. *)
Fixpoint textContent (n : Node) : string :=
  match n with
  | Text s => s
  | Element _ _ _ cs =>
      (fix go (l : list Node) : string :=
         match l with
         | [] => ""
         | c :: rest => textContent c ++ go rest
         end) cs
  end.

Definition children (n : Node) : list Node :=
  match n with
  | Text _ => []
  | Element _ _ _ cs => cs
  end.

Definition prop (name : string) (n : Node) : option string :=
  match n with
  | Text _ => None
  | Element _ _ ps _ =>
      match find (fun p => String.eqb (fst p) name) ps with
      | Some p => Some (snd p)
      | None => None
      end
  end.

(** [array.map((x, index) => f x index)], counting from [i]. *)
Fixpoint mapi_from {A B : Type} (f : A -> nat -> B) (i : nat) (l : list A)
  : list B :=
  match l with
  | [] => []
  | x :: rest => f x i :: mapi_from f (S i) rest
  end.

Definition mapi {A B : Type} (f : A -> nat -> B) (l : list A) : list B :=
  mapi_from f 0 l.

(** A number child of a JSX element is rendered in decimal. *)
Definition decimal (n : nat) : string :=
  NilEmpty.string_of_uint (Nat.to_uint n).

(* ===================================================================== *)
(** ** [Dashboard.tsx]: data                                             *)
(* ===================================================================== *)

(** [interface EmployeeData]. *)
Record EmployeeData `{Host} : Type := {
  id : number;
  firstName : string;
  lastName : string;
  email : string;
  department : string;
  position : string;
  salary : number;
  hireDate : string;
  age : number;
  location : string;
  performanceRating : number;
  projectsCompleted : number;
  isActive : bool;
  skills : list string;
  manager : option string
}.

(* ===================================================================== *)
(** ** [Dashboard.tsx]: cell renderers                                   *)
(* ===================================================================== *)

(** [IsActiveCellRenderer]. *)
Definition IsActiveCellRenderer (value : bool) : Node :=
  Element "span" None
    [("className",
      "px-2 py-1 rounded-full text-sm " ++
      (if value then "bg-green-100 text-green-800"
       else "bg-red-100 text-red-800"))]
    [Text (if value then "Active" else "Inactive")].

(** The label of one skill tag:
    [skill.length > 15 ? `${skill.substring(0, 15)}...` : skill].
    A character of a [string] stands for one UTF-16 code unit, the unit in
    which [length] and [substring] count. *)
Definition skillLabel (skill : string) : string :=
  if (15 <? String.length skill)%nat
  then substring 0 15 skill ++ "..."
  else skill.

(** The [<span>] built for one skill by the callback of [map].  Its
    children are the label expression and the explicit [{" "}] that
    follows it in the source. *)
Definition skillTag (skill : string) (index : nat) : Node :=
  Element "span" (Some index)
    [("className", "bg-blue-100 text-blue-800 text-xs px-2 py-1 rounded truncate");
     ("title", skill)]
    [Text (skillLabel skill); Text " "].

(** [<span>No skills</span>]. *)
Definition noSkills : Node :=
  Element "span" None [] [Text "No skills"].

(** The [<span>] holding [+{value.length - maxTags} more], given the
    number it displays. *)
Definition moreTag (n : nat) : Node :=
  Element "span" None [("className", "text-gray-500 text-xs")]
    [Text "+"; Text (decimal n); Text " more"].

(** [Array.isArray(value)], together with the array when it is one. *)
Definition asArray `{Host} (value : Value) : option (list string) :=
  match value with
  | VArray l => Some l
  | _ => None
  end.

(** [SkillsCellRenderer].  A condition that evaluates to [false] in the
    second child position renders nothing. *)
Definition SkillsCellRenderer `{Host} (value : Value) : Node :=
  let maxTags := 3%nat in
  Element "div" None [("className", "flex flex-wrap gap-1 pt-1 pb-1")]
    ((match asArray value with
      | Some l =>
          if (0 <? List.length l)%nat
          then mapi skillTag (firstn maxTags l)
          else [noSkills]
      | None => [noSkills]
      end)
     ++
     (match asArray value with
      | Some l =>
          if (maxTags <? List.length l)%nat
          then [moreTag (List.length l - maxTags)]
          else []
      | None => []
      end)).

(** [ManagerCellRenderer]; [None] is [null]. *)
Definition ManagerCellRenderer (value : option string) : Node :=
  Element "span" None [("className", "text-gray-800")]
    [Text (match value with Some s => s | None => "None" end)].

(* ===================================================================== *)
(** ** [Dashboard.tsx]: value formatters of [columnDefs]                 *)
(* ===================================================================== *)

(** [value === null || value === undefined]. *)
Definition isNullish `{Host} (value : Json) : bool :=
  match value with
  | JUndefined | JNull => true
  | _ => false
  end.

(** [typeof value === "number"]. *)
Definition isNumber `{Host} (value : Json) : bool :=
  match value with
  | JNumber _ => true
  | _ => false
  end.

(** Whether an object has an own property of the given name. *)
Definition hasEntry `{Host} (name : string) (entries : list (string * Json))
  : bool :=
  existsb (fun entry => String.eqb (fst entry) name) entries.

(** The loop of [Array.prototype.toLocaleString]: the text of every
    element, left to right, stopping at the first element whose text
    cannot be computed. *)
Definition collectTexts {A : Type} (text : A -> Result string)
  : list A -> Result (list string) :=
  fix collect (l : list A) : Result (list string) :=
    match l with
    | [] => Ok []
    | e :: rest =>
        match text e with
        | Throw err => Throw err
        | Ok t =>
            match collect rest with
            | Throw err => Throw err
            | Ok ts => Ok (t :: ts)
            end
        end
    end.

(** [value.toLocaleString()] on an arbitrary value.
    - Reading a property of [undefined] or [null] throws.
    - Booleans and strings inherit [Object.prototype.toLocaleString],
      which calls their [toString].
    - An array uses [Array.prototype.toLocaleString]: an element that is
      [undefined] or [null] contributes the empty text, any other element
      its own [toLocaleString()], and the host joins the texts.
    - An object with an own entry [toLocaleString] calls that entry, which
      is not callable.  Otherwise [Object.prototype.toLocaleString] calls
      the object's [toString]: an own entry of that name is not callable
      either, and without one the result is [[object Object]]. *)
Fixpoint Json_toLocaleString `{Host} (value : Json) : Result string :=
  match value with
  | JUndefined | JNull => Throw TypeError
  | JBool b => Ok (if b then "true" else "false")
  | JNumber n => Ok (Number_toLocaleString n)
  | JString s => Ok s
  | JArray elements =>
      match
        collectTexts
          (fun e => if isNullish e then Ok "" else Json_toLocaleString e)
          elements
      with
      | Ok texts => Ok (Array_toLocaleString texts)
      | Throw err => Throw err
      end
  | JObject entries =>
      if hasEntry "toLocaleString" entries || hasEntry "toString" entries
      then Throw TypeError
      else Ok "[object Object]"
  end.

(** [value.toFixed(digits)] on an arbitrary value: only numbers have the
    method.  On [undefined] and [null] reading the property throws; on any
    other value the property is missing or, for an object with an entry of
    that name, not callable, so the call throws. *)
Definition Json_toFixed `{Host} (value : Json) (digits : nat)
  : Result string :=
  match value with
  | JNumber n => Ok (Number_toFixed n digits)
  | _ => Throw TypeError
  end.

(** salary: [(params) => `$${params.value.toLocaleString()}`]. *)
Definition salaryFormatter `{Host} (value : Json) : Result string :=
  match Json_toLocaleString value with
  | Ok s => Ok ("$" ++ s)
  | Throw e => Throw e
  end.

(** performanceRating: [(params) => params.value.toFixed(1)]. *)
Definition performanceRatingFormatter `{Host} (value : Json)
  : Result string :=
  Json_toFixed value 1.

(** [new Date(s).toLocaleDateString()]: an invalid date prints as the
    fixed text [Invalid Date]. *)
Definition Date_toLocaleDateString `{Host} (d : option time) : string :=
  match d with
  | Some t => Date_format t
  | None => "Invalid Date"
  end.

(** hireDate: [(params) => new Date(params.value).toLocaleDateString()]. *)
Definition hireDateFormatter `{Host} (value : string) : string :=
  Date_toLocaleDateString (Date_parse value).

(** isActive: [(params) => (params.value ? "Active" : "Inactive")]. *)
Definition isActiveFormatter (value : bool) : string :=
  if value then "Active" else "Inactive".


(** manager: [params.value !== null ? params.value : "None"]. *)
Definition managerFormatter (value : option string) : string :=
  match value with
  | Some s => s
  | None => "None"
  end.

(* ===================================================================== *)
(** ** [Dashboard.tsx]: the component and its page size computation      *)
(* ===================================================================== *)

(** The part of the grid API the component calls:
    [api.getSizesForCurrentTheme().rowHeight], [None] when the theme
    reports no row height. *)
Record GridApi : Type := {
  themeRowHeight : option Z
}.

(** One argument of a [console.log] call. *)
Inductive ConsoleArg : Type :=
| LogText (s : string)
| LogApi (api : GridApi).

(** Everything an invocation of the callback can read or write: the
    component's state and refs, the props handed to [AgGridReact], and the
    browser console. *)
Record World `{Host} : Type := {
  (** [rowData], the state created by [useState] *)
  rowData : list EmployeeData;
  (** [gridRef.current?.api] *)
  gridApi : option GridApi;
  (** [containerRef.current?.clientHeight] *)
  containerClientHeight : option Z;
  (** the [paginationPageSize] prop of the grid *)
  paginationPageSize : Z;
  (** the [paginationPageSizeSelector] prop of the grid *)
  paginationPageSizeSelector : list Z;
  (** lines written by [console.log], oldest first *)
  console : list (list ConsoleArg)
}.

(** The props written in the JSX of [Dashboard], before any interaction. *)
Definition initialWorld `{Host} (data : list EmployeeData) : World := {|
  rowData := data;
  gridApi := None;
  containerClientHeight := None;
  paginationPageSize := 10;
  paginationPageSizeSelector := [10; 20; 50; 100];
  console := []
|}.

(** [console.log(...args)]. *)
Definition console_log `{Host} (args : list ConsoleArg) : state World unit :=
  w <- get ;;
  put {| rowData := rowData w;
         gridApi := gridApi w;
         containerClientHeight := containerClientHeight w;
         paginationPageSize := paginationPageSize w;
         paginationPageSizeSelector := paginationPageSizeSelector w;
         console := console w ++ [args] |}.

(** The last two statements of the [if] branch, as a function of the three
    constants they read:
    [availableHeight = containerHeight - headerHeight] and
    [Math.max(1, Math.floor(availableHeight / rowHeight))]. *)
Definition newPageSize (containerHeight rowHeight headerHeight : Z)
  : JSNumber.t :=
  let availableHeight := containerHeight - headerHeight in
  JSNumber.max (JSNumber.Fin 1) (JSNumber.floor_div availableHeight rowHeight).

(** [calculateDynamicPageSize].  The JavaScript callback returns
    [undefined]; the value returned here is the one it binds to its local
    constant [newPageSize], or [None] when the [else] branch runs and no
    such constant exists. *)
Definition calculateDynamicPageSize `{Host}
  : state World (option JSNumber.t) :=
  w <- get ;;
  match gridApi w with
  | Some api =>
      console_log [LogText "Grid API available:"; LogApi api] ;;
      let containerHeight :=
        JSNumber.or_default (containerClientHeight w) 400 in
      let rowHeight := JSNumber.or_default (themeRowHeight api) 30 in
      let headerHeight := 50 in
      ret (Some (newPageSize containerHeight rowHeight headerHeight))
  | None =>
      console_log [LogText "Grid API not available yet"] ;;
      ret None
  end.

(** [n] invocations in a row. *)
Fixpoint invoke `{Host} (n : nat) (w : World) : World :=
  match n with
  | O => w
  | S k => invoke k (execState calculateDynamicPageSize w)
  end.

(* ===================================================================== *)
(** ** A small host, used to run the definitions on concrete inputs      *)
(* ===================================================================== *)

(** Numbers are integers printed in decimal without grouping, and the one
    date string this host can parse is [2021-03-15]. *)
Definition decimalZ (z : Z) : string :=
  NilEmpty.string_of_int (Z.to_int z).

Definition sampleHost : Host := {|
  number := Z;
  time := (nat * nat * nat)%type;
  Number_toLocaleString := decimalZ;
  Number_toFixed := fun z digits =>
    decimalZ z ++ "." ++ String.concat "" (repeat "0" digits);
  Array_toLocaleString := String.concat ",";
  Date_parse := fun s =>
    if String.eqb s "2021-03-15" then Some (2021, 3, 15)%nat else None;
  Date_format := fun t =>
    let '(y, m, d) := t in
    decimal m ++ "/" ++ decimal d ++ "/" ++ decimal y
|}.

(** A grid whose theme reports 40px rows. *)
Definition sampleApi : GridApi := {| themeRowHeight := Some 40 |}.

(** A grid whose theme reports no row height yet. *)
Definition unmeasuredApi : GridApi := {| themeRowHeight := None |}.

(** The mounted component in a 500px container. *)
Definition sampleWorld : @World sampleHost := {|
  rowData := [];
  gridApi := Some sampleApi;
  containerClientHeight := Some 500;
  paginationPageSize := 10;
  paginationPageSizeSelector := [10; 20; 50; 100];
  console := []
|}.

(** The same measurements later in the session: the user has picked 20
    rows per page and the console already holds a line. *)
Definition sampleWorldLater : @World sampleHost := {|
  rowData := [];
  gridApi := Some sampleApi;
  containerClientHeight := Some 500;
  paginationPageSize := 20;
  paginationPageSizeSelector := [10; 20; 50; 100];
  console := [[LogText "Grid API not available yet"]]
|}.

(** The grid is ready but nothing could be measured: the container
    reports a height of 0 and the theme no row height. *)
Definition unmeasuredWorld : @World sampleHost := {|
  rowData := [];
  gridApi := Some unmeasuredApi;
  containerClientHeight := Some 0;
  paginationPageSize := 10;
  paginationPageSizeSelector := [10; 20; 50; 100];
  console := []
|}.

(** A salary delivered as an object that carries its own [toString]
    entry, e.g. the JSON text [{"amount": 75000, "toString": 1}]. *)
Definition salaryObject : @Json sampleHost :=
  JObject [("amount", @JNumber sampleHost 75000); ("toString", @JNumber sampleHost 1)].

(** A salary delivered as a list with a gap: [["n/a", null, 5]]. *)
Definition salaryList : @Json sampleHost :=
  JArray [JString "n/a"; JNull; @JNumber sampleHost 5].

(** The skills of the scenario in the specification. *)
Definition scenarioSkills : list string :=
  ["Python Programming"; "SQL"; "Leadership"; "Docker"].

(* ===================================================================== *)
(** ** [Dashboard.tsx]: column definitions and grid options              *)
(* ===================================================================== *)

(** The React key of an element. *)
Definition key (n : Node) : option nat :=
  match n with
  | Text _ => None
  | Element _ k _ _ => k
  end.

(** The value formatters written inline in [columnDefs], by the column
    that carries them. *)
Inductive FormatterRef : Type :=
| FormatSalary
| FormatHireDate
| FormatPerformanceRating
| FormatIsActive
| FormatSkills
| FormatManager.

(** The cell renderer components a column can name. *)
Inductive RendererRef : Type :=
| RenderIsActive
| RenderSkills
| RenderManager.

(** The properties of [ColDef] the component sets; [None] is a property
    the object literal leaves out. *)
Module ColDef.

Record t : Type := {
  field : string;
  headerName : string;
  width : option Z;
  filter : option string;
  sortable : option bool;
  valueFormatter : option FormatterRef;
  cellRenderer : option RendererRef;
  type : option string;
  minWidth : option Z;
  autoHeight : option bool
}.

(** A column that sets [field], [headerName], [filter] and [sortable]
    only, as most columns of the component do. *)
Definition plain (f h : string) (flt : string) : t := {|
  field := f;
  headerName := h;
  width := None;
  filter := Some flt;
  sortable := Some true;
  valueFormatter := None;
  cellRenderer := None;
  type := None;
  minWidth := None;
  autoHeight := None
|}.

End ColDef.

(** [columnDefs]. *)
Definition columnDefs : list ColDef.t := [
  {| ColDef.field := "id"; ColDef.headerName := "ID";
     ColDef.width := Some 90; ColDef.filter := None;
     ColDef.sortable := Some true; ColDef.valueFormatter := None;
     ColDef.cellRenderer := None; ColDef.type := None;
     ColDef.minWidth := None; ColDef.autoHeight := None |};
  ColDef.plain "firstName" "First Name" "agTextColumnFilter";
  ColDef.plain "lastName" "Last Name" "agTextColumnFilter";
  ColDef.plain "email" "Email" "agTextColumnFilter";
  ColDef.plain "department" "Department" "agTextColumnFilter";
  ColDef.plain "position" "Position" "agTextColumnFilter";
  {| ColDef.field := "salary"; ColDef.headerName := "Salary ($)";
     ColDef.width := None; ColDef.filter := Some "agNumberColumnFilter";
     ColDef.sortable := Some true;
     ColDef.valueFormatter := Some FormatSalary;
     ColDef.cellRenderer := None; ColDef.type := None;
     ColDef.minWidth := None; ColDef.autoHeight := None |};
  {| ColDef.field := "hireDate"; ColDef.headerName := "Hire Date";
     ColDef.width := None; ColDef.filter := Some "agDateColumnFilter";
     ColDef.sortable := Some true;
     ColDef.valueFormatter := Some FormatHireDate;
     ColDef.cellRenderer := None; ColDef.type := None;
     ColDef.minWidth := None; ColDef.autoHeight := None |};
  ColDef.plain "age" "Age" "agNumberColumnFilter";
  ColDef.plain "location" "Location" "agTextColumnFilter";
  {| ColDef.field := "performanceRating";
     ColDef.headerName := "Performance Rating";
     ColDef.width := None; ColDef.filter := Some "agNumberColumnFilter";
     ColDef.sortable := Some true;
     ColDef.valueFormatter := Some FormatPerformanceRating;
     ColDef.cellRenderer := None; ColDef.type := None;
     ColDef.minWidth := None; ColDef.autoHeight := None |};
  ColDef.plain "projectsCompleted" "Projects Completed"
    "agNumberColumnFilter";
  {| ColDef.field := "isActive"; ColDef.headerName := "Active";
     ColDef.width := None; ColDef.filter := Some "agTextColumnFilter";
     ColDef.sortable := Some true;
     ColDef.valueFormatter := Some FormatIsActive;
     ColDef.cellRenderer := Some RenderIsActive; ColDef.type := None;
     ColDef.minWidth := None; ColDef.autoHeight := None |};
  {| ColDef.field := "skills"; ColDef.headerName := "Skills";
     ColDef.width := None; ColDef.filter := Some "agTextColumnFilter";
     ColDef.sortable := Some true;
     ColDef.valueFormatter := Some FormatSkills;
     ColDef.cellRenderer := Some RenderSkills;
     ColDef.type := Some "textColumn";
     ColDef.minWidth := Some 200; ColDef.autoHeight := Some true |};
  {| ColDef.field := "manager"; ColDef.headerName := "Manager";
     ColDef.width := None; ColDef.filter := Some "agTextColumnFilter";
     ColDef.sortable := Some true;
     ColDef.valueFormatter := Some FormatManager;
     ColDef.cellRenderer := Some RenderManager;
     ColDef.type := Some "textColumn";
     ColDef.minWidth := None; ColDef.autoHeight := None |}
].

(** One entry of [gridOptions.columnTypes]. *)
Record ColumnType : Type := {
  typeFilter : string;
  typeSortable : bool;
  typeResizable : bool
}.

(** [gridOptions.columnTypes]. *)
Definition columnTypes : list (string * ColumnType) :=
  [("textColumn",
    {| typeFilter := "agTextColumnFilter";
       typeSortable := true;
       typeResizable := true |})].

(** The column whose [field] is the given key, as the grid looks a column
    up: the first match in [columnDefs]. *)
Definition getColumn (fieldKey : string) : option ColDef.t :=
  find (fun c => String.eqb (ColDef.field c) fieldKey) columnDefs.

(** The entry of [columnTypes] a column type name refers to. *)
Definition getColumnType (name : string) : option ColumnType :=
  match find (fun p => String.eqb (fst p) name) columnTypes with
  | Some p => Some (snd p)
  | None => None
  end.

(** The field names of [interface EmployeeData], in declaration order. *)
Definition employeeFields : list string :=
  ["id"; "firstName"; "lastName"; "email"; "department"; "position";
   "salary"; "hireDate"; "age"; "location"; "performanceRating";
   "projectsCompleted"; "isActive"; "skills"; "manager"].

(** Two long skill names that share their first 15 characters. *)
Definition longSkillA : string := "Machine Learning Ops".
Definition longSkillB : string := "Machine Learning Research".

(* ===================================================================== *)
(** * Properties                                                         *)
(* ===================================================================== *)

(** ** Page size arithmetic *)

Section PageSizeArithmetic.

Import JSNumber.

Lemma floor_div_finite (a r : Z) :
  r <> 0 -> floor_div a r = Fin (a / r).
Proof.
  intros Hr. unfold floor_div.
  destruct (Z.eqb_spec r 0) as [E | _]; [contradiction | reflexivity].
Qed.

(** [a / r] is the floor of the real quotient when [r] is positive. *)
Lemma floor_bracket (a r : Z) :
  0 < r -> r * (a / r) <= a < r * (a / r + 1).
Proof.
  intros Hr.
  pose proof (Z.mul_div_le a r Hr).
  pose proof (Z.mul_succ_div_gt a r Hr).
  lia.
Qed.

Lemma newPageSize_finite (h r hdr : Z) :
  r <> 0 -> newPageSize h r hdr = Fin (Z.max 1 ((h - hdr) / r)).
Proof.
  intros Hr. unfold newPageSize.
  rewrite (floor_div_finite _ _ Hr). reflexivity.
Qed.

Lemma or_default_nonzero (x : option Z) (d : Z) :
  d <> 0 -> or_default x d <> 0.
Proof.
  intros Hd. unfold or_default.
  destruct x as [v |]; [| exact Hd].
  destruct (Z.eqb_spec v 0); assumption.
Qed.

Lemma or_default_keeps (v d : Z) :
  v <> 0 -> or_default (Some v) d = v.
Proof.
  intros Hv. unfold or_default.
  destruct (Z.eqb_spec v 0); [contradiction | reflexivity].
Qed.

End PageSizeArithmetic.

(** ** Running the callback *)

Section Callback.

Context {host : Host}.

(** What one invocation returns and leaves behind, branch by branch. *)
Lemma run_api_available (w : World) (api : GridApi) :
  gridApi w = Some api ->
  runState calculateDynamicPageSize w =
    (Some (newPageSize
             (JSNumber.or_default (containerClientHeight w) 400)
             (JSNumber.or_default (themeRowHeight api) 30)
             50),
     {| rowData := rowData w;
        gridApi := gridApi w;
        containerClientHeight := containerClientHeight w;
        paginationPageSize := paginationPageSize w;
        paginationPageSizeSelector := paginationPageSizeSelector w;
        console :=
          console w ++ [[LogText "Grid API available:"; LogApi api]] |}).
Proof.
  intros Hapi. unfold calculateDynamicPageSize. cbn.
  destruct (gridApi w) as [a |] eqn:E; [| discriminate].
  injection Hapi as ->. cbn. rewrite E. reflexivity.
Qed.

Lemma run_api_missing (w : World) :
  gridApi w = None ->
  runState calculateDynamicPageSize w =
    (None,
     {| rowData := rowData w;
        gridApi := gridApi w;
        containerClientHeight := containerClientHeight w;
        paginationPageSize := paginationPageSize w;
        paginationPageSizeSelector := paginationPageSizeSelector w;
        console :=
          console w ++ [[LogText "Grid API not available yet"]] |}).
Proof.
  intros Hapi. unfold calculateDynamicPageSize. cbn.
  destruct (gridApi w) as [a |] eqn:E; [discriminate |].
  cbn. rewrite E. reflexivity.
Qed.

(** An invocation writes to the console and to nothing else. *)
Lemma exec_frame (w : World) :
  let w' := execState calculateDynamicPageSize w in
  rowData w' = rowData w
  /\ gridApi w' = gridApi w
  /\ containerClientHeight w' = containerClientHeight w
  /\ paginationPageSize w' = paginationPageSize w
  /\ paginationPageSizeSelector w' = paginationPageSizeSelector w.
Proof.
  unfold execState.
  destruct (gridApi w) as [api |] eqn:Hapi.
  - rewrite (run_api_available w api Hapi). cbn. repeat split; auto.
  - rewrite (run_api_missing w Hapi). cbn. repeat split; auto.
Qed.

Lemma invoke_frame (n : nat) :
  forall w : World,
    rowData (invoke n w) = rowData w
    /\ gridApi (invoke n w) = gridApi w
    /\ containerClientHeight (invoke n w) = containerClientHeight w
    /\ paginationPageSize (invoke n w) = paginationPageSize w
    /\ paginationPageSizeSelector (invoke n w) = paginationPageSizeSelector w.
Proof.
  induction n as [| k IH]; intros w; cbn [invoke].
  - repeat split.
  - destruct (IH (execState calculateDynamicPageSize w))
      as (H1 & H2 & H3 & H4 & H5).
    destruct (exec_frame w) as (F1 & F2 & F3 & F4 & F5).
    repeat split; congruence.
Qed.

(** The value computed depends on the two measurements only. *)
Lemma eval_depends_on_measurements (w1 w2 : World) :
  gridApi w1 = gridApi w2 ->
  containerClientHeight w1 = containerClientHeight w2 ->
  evalState calculateDynamicPageSize w1 =
  evalState calculateDynamicPageSize w2.
Proof.
  intros Hapi Hheight. unfold evalState.
  destruct (gridApi w2) as [api |] eqn:H2.
  - rewrite (run_api_available w1 api Hapi).
    rewrite (run_api_available w2 api H2).
    cbn. rewrite Hheight. reflexivity.
  - rewrite (run_api_missing w1 Hapi).
    rewrite (run_api_missing w2 H2).
    reflexivity.
Qed.

End Callback.

(** ** The claims about the page size computation *)

(** C1: for positive container height [h], row height [r] and header
    height [hdr] the computation yields [max(1, floor((h - hdr) / r))],
    where the floor is characterised by its two bounds; the value is
    exactly 1 when [h <= hdr] and when the quotient is at most 1; it is
    never below 1; and the callback applies this formula to the measured
    heights with the header height 50. *)
Theorem newPageSize_max_one_floor (h r hdr : Z) :
  0 < h -> 0 < r -> 0 < hdr ->
  newPageSize h r hdr = JSNumber.Fin (Z.max 1 ((h - hdr) / r))
  /\ r * ((h - hdr) / r) <= h - hdr < r * ((h - hdr) / r + 1)
  /\ (h <= hdr -> newPageSize h r hdr = JSNumber.Fin 1)
  /\ (h - hdr <= r -> newPageSize h r hdr = JSNumber.Fin 1)
  /\ ((h - hdr) / r <= 1 -> newPageSize h r hdr = JSNumber.Fin 1)
  /\ (exists n, newPageSize h r hdr = JSNumber.Fin n /\ 1 <= n)
  /\ (forall (host : Host) (w : World) (api : GridApi),
        gridApi w = Some api ->
        containerClientHeight w = Some h ->
        themeRowHeight api = Some r ->
        evalState calculateDynamicPageSize w
        = Some (JSNumber.Fin (Z.max 1 ((h - 50) / r)))).
Proof.
  intros Hh Hr Hhdr.
  assert (Hr0 : r <> 0) by lia.
  pose proof (newPageSize_finite h r hdr Hr0) as Hfin.
  pose proof (floor_bracket (h - hdr) r Hr) as Hfloor.
  split; [exact Hfin |].
  split; [exact Hfloor |].
  split; [| split; [| split; [| split]]].
  - intros Hle. rewrite Hfin. f_equal.
    assert ((h - hdr) / r <= 0) by (apply Z.div_le_upper_bound; lia).
    lia.
  - intros Hle. rewrite Hfin. f_equal.
    assert ((h - hdr) / r <= 1) by (apply Z.div_le_upper_bound; lia).
    lia.
  - intros Hle. rewrite Hfin. f_equal. lia.
  - exists (Z.max 1 ((h - hdr) / r)). split; [exact Hfin | lia].
  - intros host w api Hapi Hheight Hrow. unfold evalState.
    rewrite (run_api_available w api Hapi). cbn [fst].
    rewrite Hheight, Hrow.
    rewrite !or_default_keeps by lia.
    rewrite newPageSize_finite by lia. reflexivity.
Qed.

(** The two scenarios of the specification: a 500px container with 40px
    rows and a 50px header gives 11 rows, a 60px container gives 1. *)
Lemma newPageSize_max_one_floor_witness :
  0 < 500 /\ 0 < 40 /\ 0 < 50
  /\ newPageSize 500 40 50 = JSNumber.Fin 11
  /\ newPageSize 60 40 50 = JSNumber.Fin 1.
Proof.
  do 3 (split; [reflexivity |]).
  split.
  - exact (proj1 (newPageSize_max_one_floor 500 40 50
                    eq_refl eq_refl eq_refl)).
  - destruct (newPageSize_max_one_floor 60 40 50 eq_refl eq_refl eq_refl)
      as (_ & _ & _ & Hquot & _).
    apply Hquot. lia.
Defined.

(** C2: the computed page size is never applied.  One invocation, and any
    number of invocations, leave the grid's [paginationPageSize] (10 in the
    JSX), its selector, the row data and both refs as they were. *)
Theorem calculateDynamicPageSize_never_applied (host : Host) (w : World) :
  (let w' := execState calculateDynamicPageSize w in
   rowData w' = rowData w
   /\ gridApi w' = gridApi w
   /\ containerClientHeight w' = containerClientHeight w
   /\ paginationPageSize w' = paginationPageSize w
   /\ paginationPageSizeSelector w' = paginationPageSizeSelector w)
  /\ (forall n : nat,
        rowData (invoke n w) = rowData w
        /\ gridApi (invoke n w) = gridApi w
        /\ containerClientHeight (invoke n w) = containerClientHeight w
        /\ paginationPageSize (invoke n w) = paginationPageSize w
        /\ paginationPageSizeSelector (invoke n w)
           = paginationPageSizeSelector w)
  /\ (forall (data : list EmployeeData) (n : nat),
        paginationPageSize (invoke n (initialWorld data)) = 10).
Proof.
  split; [exact (exec_frame w) |].
  split; [intros n; exact (invoke_frame n w) |].
  intros data n.
  destruct (invoke_frame n (initialWorld data)) as (_ & _ & _ & H & _).
  rewrite H. reflexivity.
Qed.

(** C9: the computation is deterministic.  Two invocations that see the
    same container height and the same row height (the header height is
    the constant 50) compute the same value, whatever else differs between
    the two states; in particular a second invocation right after the
    first, or after any number of invocations, repeats the first result. *)
Theorem calculateDynamicPageSize_deterministic
  (host : Host) (w1 w2 : World) :
  option_map themeRowHeight (gridApi w1)
  = option_map themeRowHeight (gridApi w2) ->
  containerClientHeight w1 = containerClientHeight w2 ->
  evalState calculateDynamicPageSize w1
  = evalState calculateDynamicPageSize w2
  /\ (forall n : nat,
        evalState calculateDynamicPageSize (invoke n w1)
        = evalState calculateDynamicPageSize w2).
Proof.
  intros Hrow Hheight.
  assert (Hapi : gridApi w1 = gridApi w2).
  { destruct (gridApi w1) as [[r1] |], (gridApi w2) as [[r2] |];
      cbn in Hrow; congruence. }
  split.
  - apply eval_depends_on_measurements; assumption.
  - intros n. destruct (invoke_frame n w1) as (_ & F2 & F3 & _).
    apply eval_depends_on_measurements; congruence.
Qed.

(** Two states of a session with equal measurements and different
    console contents and page size selection. *)
Lemma calculateDynamicPageSize_deterministic_witness :
  evalState calculateDynamicPageSize sampleWorld
  = evalState calculateDynamicPageSize sampleWorldLater
  /\ evalState calculateDynamicPageSize (invoke 2 sampleWorld)
     = evalState calculateDynamicPageSize sampleWorldLater.
Proof.
  destruct (calculateDynamicPageSize_deterministic
              sampleHost sampleWorld sampleWorldLater eq_refl eq_refl)
    as [H1 H2].
  split; [exact H1 | exact (H2 2%nat)].
Defined.

(** C10: the computation is division-safe.  A missing or zero container
    height is replaced by 400 and a missing or zero row height by 30, so
    the divisor is not zero and the result is a finite integer at least 1;
    without the grid API nothing is computed and only the console line is
    written. *)
Theorem calculateDynamicPageSize_division_safe (host : Host) (w : World) :
  (forall api : GridApi,
      gridApi w = Some api ->
      let containerHeight :=
        JSNumber.or_default (containerClientHeight w) 400 in
      let rowHeight := JSNumber.or_default (themeRowHeight api) 30 in
      (containerClientHeight w = None \/ containerClientHeight w = Some 0 ->
       containerHeight = 400)
      /\ (themeRowHeight api = None \/ themeRowHeight api = Some 0 ->
          rowHeight = 30)
      /\ rowHeight <> 0
      /\ exists n : Z,
           evalState calculateDynamicPageSize w = Some (JSNumber.Fin n)
           /\ n = Z.max 1 ((containerHeight - 50) / rowHeight)
           /\ 1 <= n)
  /\ (gridApi w = None ->
      evalState calculateDynamicPageSize w = None
      /\ console (execState calculateDynamicPageSize w)
         = (console w ++ [[LogText "Grid API not available yet"]])%list).
Proof.
  split.
  - intros api Hapi containerHeight rowHeight.
    assert (Hrow : rowHeight <> 0)
      by (apply or_default_nonzero; discriminate).
    split; [| split; [| split; [exact Hrow |]]].
    + intros [E | E]; unfold containerHeight; rewrite E; reflexivity.
    + intros [E | E]; unfold rowHeight; rewrite E; reflexivity.
    + exists (Z.max 1 ((containerHeight - 50) / rowHeight)).
      split; [| split; [reflexivity | lia]].
      unfold evalState. rewrite (run_api_available w api Hapi). cbn [fst].
      fold containerHeight rowHeight.
      rewrite (newPageSize_finite _ _ _ Hrow). reflexivity.
  - intros Hapi. unfold evalState, execState.
    rewrite (run_api_missing w Hapi). split; reflexivity.
Qed.

(** A ready grid with nothing measurable falls back to 400px and 30px and
    computes 11 rows; before the grid is ready nothing is computed. *)
Lemma calculateDynamicPageSize_division_safe_witness :
  evalState calculateDynamicPageSize unmeasuredWorld
  = Some (JSNumber.Fin 11)
  /\ evalState calculateDynamicPageSize (initialWorld (H := sampleHost) [])
     = None.
Proof.
  split.
  - destruct (proj1 (calculateDynamicPageSize_division_safe
                       sampleHost unmeasuredWorld) unmeasuredApi eq_refl)
      as (_ & _ & _ & n & Hn & Hval & _).
    rewrite Hn, Hval. reflexivity.
  - exact (proj1 (proj2 (calculateDynamicPageSize_division_safe
                           sampleHost (initialWorld []))
                    eq_refl)).
Defined.

(** ** Strings and indexed maps *)

Section StringsAndLists.

Lemma append_empty_r (s : string) : s ++ "" = s.
Proof.
  induction s as [| c s IH]; cbn; [reflexivity | now rewrite IH].
Qed.

(** [s.substring(0, n)] is a prefix of [s]. *)
Lemma substring_0_is_prefix (n : nat) :
  forall s : string, exists rest : string, s = substring 0 n s ++ rest.
Proof.
  induction n as [| n IH]; intros s.
  - exists s. destruct s; reflexivity.
  - destruct s as [| c s].
    + exists "". reflexivity.
    + destruct (IH s) as [rest Hrest]. exists rest.
      cbn. now rewrite <- Hrest.
Qed.

(** [s.substring(0, n)] has [n] characters when [s] has that many. *)
Lemma substring_0_length (n : nat) :
  forall s : string,
    (n <= String.length s)%nat ->
    String.length (substring 0 n s) = n.
Proof.
  induction n as [| n IH]; intros s Hlen.
  - destruct s; reflexivity.
  - destruct s as [| c s]; cbn in *; [lia |].
    rewrite IH by lia. reflexivity.
Qed.

Context {A B : Type} (f : A -> nat -> B).

Lemma mapi_from_length (l : list A) :
  forall k : nat, List.length (mapi_from f k l) = List.length l.
Proof.
  induction l as [| x l IH]; intros k; cbn; [reflexivity |].
  now rewrite IH.
Qed.

Lemma mapi_from_nth_error (l : list A) :
  forall (k i : nat) (x : A),
    nth_error l i = Some x ->
    nth_error (mapi_from f k l) i = Some (f x (k + i)%nat).
Proof.
  induction l as [| y l IH]; intros k i x Hnth.
  - destruct i; discriminate.
  - destruct i as [| i]; cbn in *.
    + injection Hnth as ->. now rewrite Nat.add_0_r.
    + rewrite (IH (S k) i x Hnth). f_equal. f_equal. lia.
Qed.

Lemma mapi_nth_error (l : list A) (i : nat) (x : A) :
  nth_error l i = Some x -> nth_error (mapi f l) i = Some (f x i).
Proof.
  intros Hnth. unfold mapi.
  now rewrite (mapi_from_nth_error l 0 i x Hnth).
Qed.

End StringsAndLists.

(** ** The skills renderer *)

Section Skills.

Context {host : Host}.

Lemma skills_children_placeholder (value : Value) :
  asArray value = None \/ asArray value = Some [] ->
  children (SkillsCellRenderer value) = [noSkills].
Proof.
  intros [E | E]; unfold SkillsCellRenderer; cbn [children];
    rewrite E; reflexivity.
Qed.

Lemma skills_children_few (value : Value) (l : list string) :
  asArray value = Some l ->
  (0 < List.length l <= 3)%nat ->
  children (SkillsCellRenderer value) = mapi skillTag l.
Proof.
  intros E [Hpos Hle]. unfold SkillsCellRenderer. cbn [children].
  rewrite E.
  destruct (Nat.ltb_spec 0 (List.length l)) as [_ | Hc]; [| lia].
  destruct (Nat.ltb_spec 3 (List.length l)) as [Hc | _]; [lia |].
  rewrite firstn_all2 by lia. apply app_nil_r.
Qed.

Lemma skills_children_many (value : Value) (l : list string) :
  asArray value = Some l ->
  (3 < List.length l)%nat ->
  children (SkillsCellRenderer value)
  = (mapi skillTag (firstn 3 l) ++ [moreTag (List.length l - 3)])%list.
Proof.
  intros E Hlen. unfold SkillsCellRenderer. cbn [children].
  rewrite E.
  destruct (Nat.ltb_spec 0 (List.length l)) as [_ | Hc]; [| lia].
  destruct (Nat.ltb_spec 3 (List.length l)) as [_ | Hc]; [| lia].
  reflexivity.
Qed.

End Skills.

(** ** The claims about the renderers and formatters *)

(** C3: the skills renderer, case by case.  A value that is not an array,
    or an empty array, renders the single placeholder [No skills].  An
    array of one to three skills renders one tag per skill, in order, and
    nothing else.  A longer array renders the tags of its first three
    skills followed by [+N more] with [N] the number of skills left out.
    A tag carries the full skill as its title and shows the skill
    unchanged when it has at most 15 characters, and its first 15
    characters followed by three dots otherwise. *)
Theorem SkillsCellRenderer_cases (host : Host) (value : Value) :
  let out := children (SkillsCellRenderer value) in
  (asArray value = None \/ asArray value = Some [] ->
   out = [noSkills] /\ textContent (SkillsCellRenderer value) = "No skills")
  /\ (forall l : list string,
        asArray value = Some l ->
        (0 < List.length l <= 3)%nat ->
        List.length out = List.length l
        /\ forall (i : nat) (skill : string),
             nth_error l i = Some skill ->
             nth_error out i = Some (skillTag skill i))
  /\ (forall l : list string,
        asArray value = Some l ->
        (3 < List.length l)%nat ->
        List.length out = 4%nat
        /\ (forall (i : nat) (skill : string),
              (i < 3)%nat ->
              nth_error l i = Some skill ->
              nth_error out i = Some (skillTag skill i))
        /\ nth_error out 3 = Some (moreTag (List.length l - 3))
        /\ textContent (moreTag (List.length l - 3))
           = "+" ++ decimal (List.length l - 3) ++ " more")
  /\ (forall (skill : string) (i : nat),
        children (skillTag skill i) = [Text (skillLabel skill); Text " "]
        /\ prop "title" (skillTag skill i) = Some skill
        /\ ((String.length skill <= 15)%nat -> skillLabel skill = skill)
        /\ ((15 < String.length skill)%nat ->
            skillLabel skill = substring 0 15 skill ++ "..."
            /\ String.length (substring 0 15 skill) = 15%nat
            /\ exists rest : string,
                 skill = substring 0 15 skill ++ rest)).
Proof.
  intros out. split; [| split; [| split]].
  - intros Hnone.
    assert (Hout : out = [noSkills])
      by (apply skills_children_placeholder; exact Hnone).
    split; [exact Hout |].
    unfold out in Hout. unfold SkillsCellRenderer in *.
    cbn [children] in Hout. cbn [textContent]. rewrite Hout. reflexivity.
  - intros l E Hlen. unfold out.
    rewrite (skills_children_few value l E Hlen). split.
    + apply mapi_from_length.
    + intros i skill Hnth. now apply mapi_nth_error.
  - intros l E Hlen. unfold out.
    rewrite (skills_children_many value l E Hlen).
    assert (Hthree : List.length (mapi skillTag (firstn 3 l)) = 3%nat).
    { unfold mapi. rewrite mapi_from_length. apply firstn_length_le. lia. }
    split; [| split; [| split]].
    + rewrite length_app, Hthree. reflexivity.
    + intros i skill Hi Hnth.
      rewrite nth_error_app1 by lia.
      apply mapi_nth_error. rewrite nth_error_firstn.
      destruct (Nat.ltb_spec i 3); [exact Hnth | lia].
    + rewrite nth_error_app2 by lia. rewrite Hthree. reflexivity.
    + reflexivity.
  - intros skill i. split; [reflexivity |]. split; [reflexivity |].
    unfold skillLabel. split.
    + intros Hle.
      destruct (Nat.ltb_spec 15 (String.length skill)); [lia | reflexivity].
    + intros Hgt.
      destruct (Nat.ltb_spec 15 (String.length skill)); [| lia].
      split; [reflexivity |]. split.
      * apply substring_0_length. lia.
      * apply substring_0_is_prefix.
Qed.

(** Three runs of the skills renderer: no array, two skills, and a long
    skill name. *)
Lemma SkillsCellRenderer_cases_witness :
  children (SkillsCellRenderer (H := sampleHost) VNull) = [noSkills]
  /\ nth_error
       (children
          (SkillsCellRenderer (H := sampleHost) (VArray ["React"; "SQL"])))
       1
     = Some (skillTag "SQL" 1)
  /\ nth_error
       (children
          (SkillsCellRenderer (H := sampleHost) (VArray scenarioSkills)))
       3
     = Some (moreTag 1)
  /\ skillLabel "SQL" = "SQL"
  /\ skillLabel "Python Programming" = "Python Programm...".
Proof.
  split; [| split; [| split; [| split]]].
  - destruct (SkillsCellRenderer_cases sampleHost VNull) as (H & _).
    exact (proj1 (H (or_introl eq_refl))).
  - destruct (SkillsCellRenderer_cases sampleHost (VArray ["React"; "SQL"]))
      as (_ & H & _).
    destruct (H ["React"; "SQL"] eq_refl (conj (le_S _ _ (le_n 1)) (le_S _ _ (le_n 2))))
      as (_ & Hnth).
    exact (Hnth 1%nat "SQL" eq_refl).
  - destruct (SkillsCellRenderer_cases sampleHost (VArray scenarioSkills))
      as (_ & _ & H & _).
    destruct (H scenarioSkills eq_refl (le_n 4)) as (_ & _ & Hmore & _).
    exact Hmore.
  - destruct (SkillsCellRenderer_cases sampleHost VNull) as (_ & _ & _ & H).
    destruct (H "SQL" 0%nat) as (_ & _ & Hshort & _).
    apply Hshort. cbn. lia.
  - destruct (SkillsCellRenderer_cases sampleHost VNull) as (_ & _ & _ & H).
    destruct (H "Python Programming" 0%nat) as (_ & _ & _ & Hlong).
    apply Hlong. cbn. lia.
Defined.

(** C4, as the code renders it.  The four skills of the scenario give three
    tags and the suffix [+1 more]; the long first skill is cut after its
    first 15 characters, so its tag reads [Python Programm...]. *)
Theorem SkillsCellRenderer_scenario (host : Host) :
  SkillsCellRenderer (VArray scenarioSkills)
  = Element "div" None [("className", "flex flex-wrap gap-1 pt-1 pb-1")]
      [skillTag "Python Programming" 0;
       skillTag "SQL" 1;
       skillTag "Leadership" 2;
       moreTag 1]
  /\ map skillLabel (firstn 3 scenarioSkills)
     = ["Python Programm..."; "SQL"; "Leadership"]
  /\ children (skillTag "Python Programming" 0)
     = [Text "Python Programm..."; Text " "]
  /\ children (skillTag "SQL" 1) = [Text "SQL"; Text " "]
  /\ children (skillTag "Leadership" 2) = [Text "Leadership"; Text " "]
  /\ textContent (moreTag 1) = "+1 more".
Proof.
  repeat split.
Qed.

(** C4 as stated does not hold: the text of the first tag does not begin
    with [Python Programmin...], and no tag of the output has that label. *)
Lemma SkillsCellRenderer_scenario_first_tag :
  let out :=
    children (SkillsCellRenderer (H := sampleHost) (VArray scenarioSkills)) in
  option_map textContent (nth_error out 0) = Some "Python Programm... "
  /\ option_map (prefix "Python Programmin...") (option_map textContent (nth_error out 0))
     = Some false
  /\ existsb
       (fun tag =>
          existsb
            (fun child =>
               match child with
               | Text s => String.eqb s "Python Programmin..."
               | Element _ _ _ _ => false
               end)
            (children tag))
       out
     = false
  /\ map skillLabel (firstn 3 scenarioSkills)
     <> ["Python Programmin..."; "SQL"; "Leadership"].
Proof.
  repeat split. discriminate.
Qed.

(** C5: the manager renderer and the manager formatter show the
    placeholder [None] for [null] and any string unchanged. *)
Theorem manager_None_or_verbatim (value : option string) :
  ManagerCellRenderer None
  = Element "span" None [("className", "text-gray-800")] [Text "None"]
  /\ (forall s : string,
        ManagerCellRenderer (Some s)
        = Element "span" None [("className", "text-gray-800")] [Text s])
  /\ textContent (ManagerCellRenderer value)
     = match value with Some s => s | None => "None" end
  /\ managerFormatter None = "None"
  /\ (forall s : string, managerFormatter (Some s) = s)
  /\ textContent (ManagerCellRenderer (Some "Jane Doe")) = "Jane Doe".
Proof.
  repeat split.
  destruct value as [s |]; cbn; [apply append_empty_r | reflexivity].
Qed.

(** C8: the isActive renderer and formatter produce [Active] for [true]
    and [Inactive] for [false]; the two texts differ, there is no third
    one, and the text tells the boolean. *)
Theorem isActive_two_states (value : bool) :
  children (IsActiveCellRenderer value) = [Text (isActiveFormatter value)]
  /\ textContent (IsActiveCellRenderer value) = isActiveFormatter value
  /\ isActiveFormatter true = "Active"
  /\ isActiveFormatter false = "Inactive"
  /\ (isActiveFormatter value = "Active"
      \/ isActiveFormatter value = "Inactive")
  /\ "Active" <> "Inactive"
  /\ String.eqb (textContent (IsActiveCellRenderer value)) "Active" = value
  /\ String.eqb (isActiveFormatter value) "Active" = value.
Proof.
  split; [reflexivity |].
  split; [destruct value; reflexivity |].
  split; [reflexivity |].
  split; [reflexivity |].
  split; [destruct value; [left | right]; reflexivity |].
  split; [discriminate |].
  split; destruct value; reflexivity.
Qed.

(** The element loop succeeds with the listed texts when every element
    yields its text. *)
Lemma collectTexts_all {A : Type} (text : A -> Result string)
  (l : list A) (texts : list string) :
  Forall2 (fun e t => text e = Ok t) l texts ->
  collectTexts text l = Ok texts.
Proof.
  induction 1 as [| e t l texts He _ IH]; cbn; [reflexivity |].
  rewrite He. fold (collectTexts text). rewrite IH. reflexivity.
Qed.

(** The element loop throws as soon as one element throws. *)
Lemma collectTexts_throw {A : Type} (text : A -> Result string)
  (l : list A) (e : A) :
  In e l -> text e = Throw TypeError ->
  collectTexts text l = Throw TypeError.
Proof.
  intros Hin He. induction l as [| x l IH]; [contradiction |].
  cbn. fold (collectTexts text).
  destruct Hin as [-> | Hin].
  - rewrite He. reflexivity.
  - destruct (text x) as [t | []]; [| reflexivity].
    rewrite (IH Hin). reflexivity.
Qed.

(** C6, as the code behaves.  Neither formatter guards against a value of
    the wrong type.  On a number neither throws.  The rating formatter
    throws on every value that is not a number.  The salary formatter
    throws on [null] and [undefined], on an object with an own entry named
    [toLocaleString] or [toString], and on an array with an element, other
    than [null] and [undefined], whose [toLocaleString()] throws.
    Otherwise it prefixes the text of [value.toLocaleString()] with a
    dollar sign: the raw string for a string, [true] or [false] for a
    boolean, [[object Object]] for another object, and for an array the
    host's joining of the texts of its elements, the empty text standing
    for [null] and [undefined].  It has no other outcome. *)
Theorem numeric_formatters_by_value (host : Host) (value : Json) :
  (forall n : number,
      salaryFormatter (JNumber n) = Ok ("$" ++ Number_toLocaleString n)
      /\ performanceRatingFormatter (JNumber n) = Ok (Number_toFixed n 1))
  /\ (isNumber value = false ->
      performanceRatingFormatter value = Throw TypeError)
  /\ (isNullish value = true -> salaryFormatter value = Throw TypeError)
  /\ (forall s : string, salaryFormatter (JString s) = Ok ("$" ++ s))
  /\ (forall b : bool,
        salaryFormatter (JBool b)
        = Ok ("$" ++ (if b then "true" else "false")))
  /\ (forall entries : list (string * Json),
        (hasEntry "toLocaleString" entries = true
         \/ hasEntry "toString" entries = true ->
         salaryFormatter (JObject entries) = Throw TypeError)
        /\ (hasEntry "toLocaleString" entries = false ->
            hasEntry "toString" entries = false ->
            salaryFormatter (JObject entries) = Ok "$[object Object]"))
  /\ (forall (elements : list Json) (texts : list string),
        Forall2
          (fun e t =>
             (isNullish e = true /\ t = "")
             \/ (isNullish e = false /\ Json_toLocaleString e = Ok t))
          elements texts ->
        salaryFormatter (JArray elements)
        = Ok ("$" ++ Array_toLocaleString texts))
  /\ (forall (elements : list Json) (e : Json),
        In e elements ->
        isNullish e = false ->
        Json_toLocaleString e = Throw TypeError ->
        salaryFormatter (JArray elements) = Throw TypeError)
  /\ (salaryFormatter value = Throw TypeError
      \/ exists text : string,
           Json_toLocaleString value = Ok text
           /\ salaryFormatter value = Ok ("$" ++ text)).
Proof.
  split; [intros n; split; reflexivity |].
  split; [intros Hnum; destruct value; try discriminate Hnum; reflexivity |].
  split; [intros Hnull; destruct value; try discriminate Hnull; reflexivity |].
  split; [reflexivity |].
  split; [reflexivity |].
  split; [| split; [| split]].
  - intros entries. unfold salaryFormatter. cbn [Json_toLocaleString]. split.
    + intros [Hl | Hs].
      * rewrite Hl. reflexivity.
      * rewrite Hs, orb_true_r. reflexivity.
    + intros Hl Hs. rewrite Hl, Hs. reflexivity.
  - intros elements texts Hall.
    unfold salaryFormatter. cbn [Json_toLocaleString].
    rewrite (collectTexts_all _ elements texts); [reflexivity |].
    induction Hall as [| e t l ts He _ IH]; constructor; [| exact IH].
    destruct He as [[Hnull ->] | [Hnull Htext]]; rewrite Hnull;
      [reflexivity | exact Htext].
  - intros elements e Hin Hnull Hthrow.
    unfold salaryFormatter. cbn [Json_toLocaleString].
    rewrite (collectTexts_throw _ elements e Hin); [reflexivity |].
    rewrite Hnull. exact Hthrow.
  - unfold salaryFormatter.
    destruct (Json_toLocaleString value) as [text | []].
    + right. exists text. split; reflexivity.
    + left. reflexivity.
Qed.

(** A rating delivered as a string, a missing salary, a salary object
    with and without a [toString] entry, and salary lists with a gap and
    with that object inside. *)
Lemma numeric_formatters_by_value_witness :
  performanceRatingFormatter (H := sampleHost) (JString "4.5")
  = Throw TypeError
  /\ salaryFormatter (H := sampleHost) JUndefined = Throw TypeError
  /\ salaryFormatter salaryObject = Throw TypeError
  /\ salaryFormatter (H := sampleHost) (JObject [("amount", @JNumber sampleHost 75000)])
     = Ok "$[object Object]"
  /\ salaryFormatter salaryList = Ok "$n/a,,5"
  /\ salaryFormatter (JArray [JString "n/a"; salaryObject])
     = Throw TypeError.
Proof.
  split; [| split; [| split; [| split; [| split]]]].
  - exact (proj1 (proj2
             (numeric_formatters_by_value sampleHost (JString "4.5")))
             eq_refl).
  - exact (proj1 (proj2 (proj2
             (numeric_formatters_by_value sampleHost JUndefined)))
             eq_refl).
  - destruct (numeric_formatters_by_value sampleHost JNull)
      as (_ & _ & _ & _ & _ & Hobj & _).
    exact (proj1 (Hobj [("amount", @JNumber sampleHost 75000); ("toString", @JNumber sampleHost 1)])
             (or_intror eq_refl)).
  - destruct (numeric_formatters_by_value sampleHost JNull)
      as (_ & _ & _ & _ & _ & Hobj & _).
    exact (proj2 (Hobj [("amount", @JNumber sampleHost 75000)]) eq_refl eq_refl).
  - destruct (numeric_formatters_by_value sampleHost JNull)
      as (_ & _ & _ & _ & _ & _ & Harr & _).
    apply (Harr [JString "n/a"; JNull; @JNumber sampleHost 5] ["n/a"; ""; "5"]).
    constructor; [right; split; reflexivity |].
    constructor; [left; split; reflexivity |].
    constructor; [right; split; reflexivity |].
    constructor.
  - destruct (numeric_formatters_by_value sampleHost JNull)
      as (_ & _ & _ & _ & _ & _ & _ & Hthrow & _).
    apply (Hthrow [JString "n/a"; salaryObject] salaryObject).
    + right. left. reflexivity.
    + reflexivity.
    + reflexivity.
Defined.

(** C6 as stated does not hold: the salary formatter throws on [null],
    and the rating formatter throws on [null] and on a string. *)
Lemma numeric_formatters_throw :
  salaryFormatter (H := sampleHost) JNull = Throw TypeError
  /\ performanceRatingFormatter (H := sampleHost) JNull = Throw TypeError
  /\ performanceRatingFormatter (H := sampleHost) (JString "4.5")
     = Throw TypeError
  /\ ~ (forall v : @Json sampleHost,
          exists s : string, salaryFormatter v = Ok s)
  /\ ~ (forall v : @Json sampleHost,
          exists s : string, performanceRatingFormatter v = Ok s).
Proof.
  split; [reflexivity |].
  split; [reflexivity |].
  split; [reflexivity |].
  split; intros Hall; destruct (Hall JNull) as [s Hs]; discriminate Hs.
Qed.

(** C7, as the code behaves.  The formatter never throws.  A string the
    host can parse is shown as the host's short date; a string it cannot
    parse is shown as the fixed text [Invalid Date], which is not the input
    unless the input is that very text. *)
Theorem hireDateFormatter_by_parse (host : Host) (value : string) :
  (forall t : time,
      Date_parse value = Some t -> hireDateFormatter value = Date_format t)
  /\ (Date_parse value = None ->
      hireDateFormatter value = "Invalid Date"
      /\ (String.eqb value "Invalid Date" = false ->
          hireDateFormatter value <> value)).
Proof.
  unfold hireDateFormatter. split.
  - intros t Hparse. rewrite Hparse. reflexivity.
  - intros Hparse. rewrite Hparse. cbn. split; [reflexivity |].
    intros Hneq Heq. rewrite <- Heq in Hneq.
    rewrite String.eqb_refl in Hneq. discriminate Hneq.
Qed.

(** A date the sample host parses, and a string it does not. *)
Lemma hireDateFormatter_by_parse_witness :
  hireDateFormatter (H := sampleHost) "2021-03-15" = "3/15/2021"
  /\ hireDateFormatter (H := sampleHost) "not a date" = "Invalid Date"
  /\ hireDateFormatter (H := sampleHost) "not a date" <> "not a date".
Proof.
  split; [| split].
  - exact (proj1 (hireDateFormatter_by_parse sampleHost "2021-03-15")
             (2021, 3, 15)%nat eq_refl).
  - exact (proj1 (proj2 (hireDateFormatter_by_parse sampleHost "not a date")
                    eq_refl)).
  - exact (proj2 (proj2 (hireDateFormatter_by_parse sampleHost "not a date")
                    eq_refl) eq_refl).
Defined.

(** C7 as stated does not hold: an unparsable string is not shown as it
    is. *)
Lemma hireDateFormatter_unparsable_not_verbatim :
  Date_parse (Host := sampleHost) "not a date" = None
  /\ hireDateFormatter (H := sampleHost) "not a date" = "Invalid Date"
  /\ hireDateFormatter (H := sampleHost) "not a date" <> "not a date"
  /\ ~ (forall (host : Host) (s : string),
          Date_parse s = None -> hireDateFormatter s = s).
Proof.
  split; [reflexivity |].
  split; [reflexivity |].
  split; [discriminate |].
  intros Hall.
  specialize (Hall sampleHost "not a date" eq_refl).
  discriminate Hall.
Qed.

(* ===================================================================== *)
(** * Further properties of the code                                     *)
(* ===================================================================== *)

(** ** The page size formula *)

(** X1: with a positive row height the computed number of rows fills the
    available height without overflowing it whenever at least one row
    fits: [n] rows fit and [n + 1] rows do not.  When not even one row
    fits, the result is clamped to 1, so the single row overflows. *)
Theorem newPageSize_rows_fit (h r hdr : Z) :
  0 < r ->
  exists n : Z,
    newPageSize h r hdr = JSNumber.Fin n
    /\ (r <= h - hdr -> n * r <= h - hdr < (n + 1) * r)
    /\ (h - hdr < r -> n = 1 /\ h - hdr < n * r).
Proof.
  intros Hr.
  exists (Z.max 1 ((h - hdr) / r)).
  split; [apply newPageSize_finite; lia |].
  pose proof (floor_bracket (h - hdr) r Hr) as [Hlo Hhi].
  split.
  - intros Hfit.
    assert (1 <= (h - hdr) / r) by (apply Z.div_le_lower_bound; lia).
    rewrite Z.max_r by lia. lia.
  - intros Hsmall.
    assert ((h - hdr) / r <= 0).
    { destruct (Z_le_gt_dec ((h - hdr) / r) 0) as [Hle | Hgt]; [exact Hle |].
      exfalso. nia. }
    rewrite Z.max_l by lia. lia.
Qed.

(** A 500px container holds 11 rows of 40px under the header and not 12;
    a 60px container is clamped to one row. *)
Lemma newPageSize_rows_fit_witness :
  exists n m : Z,
    newPageSize 500 40 50 = JSNumber.Fin n
    /\ n * 40 <= 450 < (n + 1) * 40
    /\ newPageSize 60 40 50 = JSNumber.Fin m
    /\ m = 1.
Proof.
  destruct (newPageSize_rows_fit 500 40 50 eq_refl) as (n & Hn & Hfit & _).
  destruct (newPageSize_rows_fit 60 40 50 eq_refl) as (m & Hm & _ & Hclamp).
  exists n, m.
  split; [exact Hn |].
  split; [apply Hfit; lia |].
  split; [exact Hm |].
  apply Hclamp. lia.
Defined.

(** X2: a taller container never gets fewer rows. *)
Theorem newPageSize_monotone_in_height (h1 h2 r hdr : Z) :
  0 < r -> h1 <= h2 ->
  exists n1 n2 : Z,
    newPageSize h1 r hdr = JSNumber.Fin n1
    /\ newPageSize h2 r hdr = JSNumber.Fin n2
    /\ n1 <= n2.
Proof.
  intros Hr Hle.
  exists (Z.max 1 ((h1 - hdr) / r)), (Z.max 1 ((h2 - hdr) / r)).
  split; [apply newPageSize_finite; lia |].
  split; [apply newPageSize_finite; lia |].
  assert ((h1 - hdr) / r <= (h2 - hdr) / r)
    by (apply Z.div_le_mono; lia).
  lia.
Qed.

Lemma newPageSize_monotone_in_height_witness :
  exists n1 n2 : Z,
    newPageSize 400 30 50 = JSNumber.Fin n1
    /\ newPageSize 900 30 50 = JSNumber.Fin n2
    /\ n1 <= n2.
Proof.
  apply (newPageSize_monotone_in_height 400 900 30 50); [reflexivity | lia].
Defined.

(** X3: taller rows never give more rows per page. *)
Theorem newPageSize_antitone_in_rowHeight (h r1 r2 hdr : Z) :
  0 < r1 -> r1 <= r2 ->
  exists n1 n2 : Z,
    newPageSize h r1 hdr = JSNumber.Fin n1
    /\ newPageSize h r2 hdr = JSNumber.Fin n2
    /\ n2 <= n1.
Proof.
  intros Hr1 Hle.
  exists (Z.max 1 ((h - hdr) / r1)), (Z.max 1 ((h - hdr) / r2)).
  split; [apply newPageSize_finite; lia |].
  split; [apply newPageSize_finite; lia |].
  destruct (Z_le_gt_dec 0 (h - hdr)) as [Hpos | Hneg].
  - assert ((h - hdr) / r2 <= (h - hdr) / r1)
      by (apply Z.div_le_compat_l; lia).
    lia.
  - assert ((h - hdr) / r1 < 0) by (apply Z.div_lt_upper_bound; lia).
    assert ((h - hdr) / r2 < 0) by (apply Z.div_lt_upper_bound; lia).
    lia.
Qed.

Lemma newPageSize_antitone_in_rowHeight_witness :
  exists n1 n2 : Z,
    newPageSize 500 30 50 = JSNumber.Fin n1
    /\ newPageSize 500 42 50 = JSNumber.Fin n2
    /\ n2 <= n1.
Proof.
  apply (newPageSize_antitone_in_rowHeight 500 30 42 50);
    [reflexivity | lia].
Defined.

(** X4: the formula alone is not safe for a zero row height.  Above the
    header height it yields [Infinity], at the header height [NaN], and
    only below it the clamp to 1 still applies. *)
Theorem newPageSize_zero_rowHeight (h hdr : Z) :
  (hdr < h -> newPageSize h 0 hdr = JSNumber.PosInf)
  /\ (h = hdr -> newPageSize h 0 hdr = JSNumber.NaN)
  /\ (h < hdr -> newPageSize h 0 hdr = JSNumber.Fin 1).
Proof.
  unfold newPageSize, JSNumber.floor_div. cbn [Z.eqb].
  split; [| split]; intros Hcmp.
  - destruct (Z.ltb_spec 0 (h - hdr)); [reflexivity | lia].
  - destruct (Z.ltb_spec 0 (h - hdr)); [lia |].
    destruct (Z.ltb_spec (h - hdr) 0); [lia | reflexivity].
  - destruct (Z.ltb_spec 0 (h - hdr)); [lia |].
    destruct (Z.ltb_spec (h - hdr) 0); [reflexivity | lia].
Qed.

Lemma newPageSize_zero_rowHeight_witness :
  newPageSize 400 0 50 = JSNumber.PosInf
  /\ newPageSize 50 0 50 = JSNumber.NaN
  /\ newPageSize 20 0 50 = JSNumber.Fin 1.
Proof.
  split; [| split].
  - exact (proj1 (newPageSize_zero_rowHeight 400 50) eq_refl).
  - exact (proj1 (proj2 (newPageSize_zero_rowHeight 50 50)) eq_refl).
  - exact (proj2 (proj2 (newPageSize_zero_rowHeight 20 50)) eq_refl).
Defined.

(** ** The console *)

(** X5: every invocation writes exactly one console line and keeps the
    lines already there.  After [n] invocations the console holds the old
    lines followed by [n] copies of the line that the availability of the
    grid API selects. *)
Theorem invoke_console (host : Host) (n : nat) (w : World) :
  console (invoke n w)
  = (console w
     ++ repeat
          (match gridApi w with
           | Some api => [LogText "Grid API available:"; LogApi api]
           | None => [LogText "Grid API not available yet"]
           end)
          n)%list
  /\ List.length (console (invoke n w)) = (List.length (console w) + n)%nat.
Proof.
  assert (Hconsole :
    forall (k : nat) (v : World),
      console (invoke k v)
      = (console v
         ++ repeat
              (match gridApi v with
               | Some api => [LogText "Grid API available:"; LogApi api]
               | None => [LogText "Grid API not available yet"]
               end)
              k)%list).
  { induction k as [| k IH]; intros v; cbn [invoke repeat].
    - now rewrite app_nil_r.
    - rewrite IH. unfold execState.
      destruct (gridApi v) as [api |] eqn:Hapi.
      + rewrite (run_api_available v api Hapi). cbn [snd console gridApi].
        rewrite Hapi, <- app_assoc. reflexivity.
      + rewrite (run_api_missing v Hapi). cbn [snd console gridApi].
        rewrite Hapi, <- app_assoc. reflexivity. }
  split; [apply Hconsole |].
  rewrite Hconsole, length_app, repeat_length. reflexivity.
Qed.

(** ** Strings, text and keys *)

Section TextAndKeys.

Lemma append_length (s1 s2 : string) :
  String.length (s1 ++ s2) = (String.length s1 + String.length s2)%nat.
Proof.
  induction s1 as [| c s1 IH]; cbn; [reflexivity | now rewrite IH].
Qed.

(** The text of an element is the concatenation of its children's. *)
Lemma textContent_Element
  (tag : string) (k : option nat) (ps : list (string * string))
  (cs : list Node) :
  textContent (Element tag k ps cs)
  = fold_right (fun c acc => textContent c ++ acc) "" cs.
Proof.
  cbn [textContent]. induction cs as [| c cs IH]; cbn; [reflexivity |].
  now rewrite IH.
Qed.

Lemma fold_text_app (l1 l2 : list Node) :
  fold_right (fun c acc => textContent c ++ acc) "" (l1 ++ l2)
  = fold_right (fun c acc => textContent c ++ acc) "" l1
    ++ fold_right (fun c acc => textContent c ++ acc) "" l2.
Proof.
  induction l1 as [| c l1 IH]; cbn; [reflexivity |].
  rewrite IH. clear IH.
  induction (textContent c) as [| a s IHs]; cbn; [reflexivity |].
  now rewrite IHs.
Qed.

Lemma skillTag_text (skill : string) (i : nat) :
  textContent (skillTag skill i) = skillLabel skill ++ " ".
Proof. reflexivity. Qed.

Lemma fold_text_tags (l : list string) :
  forall k : nat,
    fold_right (fun c acc => textContent c ++ acc) ""
      (mapi_from skillTag k l)
    = fold_right (fun skill acc => (skillLabel skill ++ " ") ++ acc) "" l.
Proof.
  induction l as [| s l IH]; intros k; cbn [mapi_from fold_right];
    [reflexivity |].
  rewrite IH, skillTag_text. reflexivity.
Qed.

Lemma keys_of_tags (l : list string) :
  forall k : nat,
    map key (mapi_from skillTag k l) = map Some (seq k (List.length l)).
Proof.
  induction l as [| s l IH]; intros k; cbn; [reflexivity |].
  now rewrite IH.
Qed.

Lemma NoDup_map_Some (l : list nat) :
  NoDup l -> NoDup (map Some l).
Proof.
  induction 1 as [| x l Hnotin Hnodup IH]; cbn; constructor;
    [| exact IH].
  rewrite in_map_iff. intros (y & Hy & Hin).
  injection Hy as ->. contradiction.
Qed.

End TextAndKeys.

(** ** The skills renderer and formatter *)

(** X6: a label is never longer than 18 characters: it has the length of
    the skill when that is at most 15, and exactly 18 otherwise. *)
Theorem skillLabel_length (skill : string) :
  (String.length (skillLabel skill) <= 18)%nat
  /\ ((String.length skill <= 15)%nat ->
      String.length (skillLabel skill) = String.length skill)
  /\ ((15 < String.length skill)%nat ->
      String.length (skillLabel skill) = 18%nat).
Proof.
  unfold skillLabel.
  destruct (Nat.ltb_spec 15 (String.length skill)) as [Hlong | Hshort].
  - rewrite append_length, substring_0_length by lia. cbn.
    repeat split; lia.
  - repeat split; lia.
Qed.

Lemma skillLabel_length_witness :
  String.length (skillLabel "SQL") = 3%nat
  /\ String.length (skillLabel longSkillB) = 18%nat.
Proof.
  split.
  - exact (proj1 (proj2 (skillLabel_length "SQL"))
             (le_S _ _ (le_S _ _ (le_S _ _ (le_S _ _ (le_S _ _ (le_S _ _
              (le_S _ _ (le_S _ _ (le_S _ _ (le_S _ _ (le_S _ _ (le_S _ _
              (le_n 3)))))))))))))).
  - apply (proj2 (proj2 (skillLabel_length longSkillB))). cbn. lia.
Defined.

(** X7: two long skills with the same first 15 characters get the same
    label, yet their tags differ: a tag determines its skill (through the
    title) and its index (through the key). *)
Theorem skillTag_injective (s1 s2 : string) (i1 i2 : nat) :
  (skillTag s1 i1 = skillTag s2 i2 -> s1 = s2 /\ i1 = i2)
  /\ ((15 < String.length s1)%nat ->
      (15 < String.length s2)%nat ->
      substring 0 15 s1 = substring 0 15 s2 ->
      skillLabel s1 = skillLabel s2).
Proof.
  split.
  - intros Heq. unfold skillTag in Heq.
    injection Heq as Hi Hs _. split; assumption.
  - intros H1 H2 Hprefix. unfold skillLabel.
    destruct (Nat.ltb_spec 15 (String.length s1)); [| lia].
    destruct (Nat.ltb_spec 15 (String.length s2)); [| lia].
    now rewrite Hprefix.
Qed.

Lemma skillTag_injective_witness :
  skillLabel longSkillA = skillLabel longSkillB
  /\ longSkillA <> longSkillB
  /\ skillTag longSkillA 0 <> skillTag longSkillB 0.
Proof.
  split; [| split].
  - apply (proj2 (skillTag_injective longSkillA longSkillB 0 0));
      [cbn; lia | cbn; lia | reflexivity].
  - discriminate.
  - intros Heq.
    destruct (proj1 (skillTag_injective longSkillA longSkillB 0 0) Heq)
      as [Hs _].
    discriminate Hs.
Defined.

(** X8: for every value that is not an array, and for every array of
    strings, the cell has at least one and at most four children; for a
    non-empty array of strings the tags shown and the number in the suffix
    account for every skill. *)
Theorem SkillsCellRenderer_size (host : Host) (value : Value) :
  let out := children (SkillsCellRenderer value) in
  (1 <= List.length out <= 4)%nat
  /\ (forall l : list string,
        asArray value = Some l ->
        l <> [] ->
        exists shown hidden : nat,
          shown = Nat.min 3 (List.length l)
          /\ (shown + hidden = List.length l)%nat
          /\ out = (mapi skillTag (firstn shown l)
                    ++ (if (0 <? hidden)%nat then [moreTag hidden] else []))%list).
Proof.
  intros out. unfold out, SkillsCellRenderer. cbn [children].
  destruct (asArray value) as [l |] eqn:E.
  - destruct l as [| a l].
    + split; [cbn; lia |]. intros l' Hl' Hne.
      injection Hl' as <-. contradiction.
    + assert (H0 : (0 <? List.length (a :: l))%nat = true) by reflexivity.
      rewrite H0. clear H0.
      split.
      * rewrite length_app. unfold mapi. rewrite mapi_from_length.
        pose proof (firstn_le_length 3 (a :: l)) as Hf.
        assert (Hf3 : (List.length (firstn 3 (a :: l)) <= 3)%nat)
          by (rewrite length_firstn; lia).
        assert (Hf1 : (1 <= List.length (firstn 3 (a :: l)))%nat)
          by (cbn; lia).
        destruct (3 <? List.length (a :: l))%nat; cbn [List.length]; lia.
      * intros l' Hl' _. injection Hl' as <-.
        exists (Nat.min 3 (List.length (a :: l))),
               (List.length (a :: l) - 3)%nat.
        split; [reflexivity |]. split; [lia |].
        destruct (Nat.ltb_spec 3 (List.length (a :: l))) as [Hmany | Hfew].
        -- rewrite Nat.min_l by lia.
           destruct (Nat.ltb_spec 0 (List.length (a :: l) - 3)); [| lia].
           reflexivity.
        -- rewrite Nat.min_r by lia.
           destruct (Nat.ltb_spec 0 (List.length (a :: l) - 3)); [lia |].
           rewrite !firstn_all2 by lia. reflexivity.
  - split; [cbn; lia |]. intros l Hl. discriminate Hl.
Qed.

Lemma SkillsCellRenderer_size_witness :
  exists shown hidden : nat,
    shown = 3%nat /\ hidden = 1%nat
    /\ children (SkillsCellRenderer (H := sampleHost) (VArray scenarioSkills))
       = (mapi skillTag (firstn shown scenarioSkills) ++ [moreTag hidden])%list.
Proof.
  destruct (proj2 (SkillsCellRenderer_size sampleHost (VArray scenarioSkills))
              scenarioSkills eq_refl)
    as (shown & hidden & Hshown & Hsum & Hout).
  - discriminate.
  - exists shown, hidden.
    assert (Hs : shown = 3%nat) by exact Hshown.
    assert (Hh : hidden = 1%nat) by (cbn in Hsum; lia).
    split; [exact Hs |]. split; [exact Hh |].
    rewrite Hout, Hh. reflexivity.
Defined.

(** X9: the tags of a non-empty array carry the React keys 0, 1, ... in
    order, so no two tags share a key; whatever follows the tags (the
    suffix, if any) has no key. *)
Theorem SkillsCellRenderer_keys
  (host : Host) (value : Value) (l : list string) :
  asArray value = Some l ->
  (0 < List.length l)%nat ->
  exists tags rest : list Node,
    children (SkillsCellRenderer value) = (tags ++ rest)%list
    /\ map key tags = map Some (seq 0 (Nat.min 3 (List.length l)))
    /\ NoDup (map key tags)
    /\ (List.length rest <= 1)%nat
    /\ (forall c : Node, In c rest -> key c = None).
Proof.
  intros E Hlen.
  assert (Hkeys :
    map key (mapi skillTag (firstn 3 l))
    = map Some (seq 0 (Nat.min 3 (List.length l)))).
  { unfold mapi. rewrite keys_of_tags, length_firstn. reflexivity. }
  exists (mapi skillTag (firstn 3 l)).
  exists (if (3 <? List.length l)%nat
          then [moreTag (List.length l - 3)] else []).
  split; [| split; [exact Hkeys | split; [| split]]].
  - unfold SkillsCellRenderer. cbn [children]. rewrite E.
    destruct (Nat.ltb_spec 0 (List.length l)); [reflexivity | lia].
  - rewrite Hkeys. apply NoDup_map_Some, seq_NoDup.
  - destruct (3 <? List.length l)%nat; cbn; lia.
  - intros c Hin.
    destruct (3 <? List.length l)%nat; cbn in Hin; [| contradiction].
    destruct Hin as [<- | []]. reflexivity.
Qed.

Lemma SkillsCellRenderer_keys_witness :
  exists tags rest : list Node,
    children (SkillsCellRenderer (H := sampleHost) (VArray scenarioSkills))
    = (tags ++ rest)%list
    /\ map key tags = [Some 0; Some 1; Some 2]%nat.
Proof.
  destruct (SkillsCellRenderer_keys sampleHost (VArray scenarioSkills)
              scenarioSkills eq_refl)
    as (tags & rest & Hout & Hkeys & _).
  - cbn. lia.
  - exists tags, rest. split; [exact Hout | exact Hkeys].
Defined.

(** X10: the text of a cell with skills is the labels of the first three
    skills, each followed by one space, and then [+N more] when skills
    were left out. *)
Theorem SkillsCellRenderer_text
  (host : Host) (value : Value) (l : list string) :
  asArray value = Some l ->
  (0 < List.length l)%nat ->
  textContent (SkillsCellRenderer value)
  = fold_right (fun skill acc => (skillLabel skill ++ " ") ++ acc) ""
      (firstn 3 l)
    ++ (if (3 <? List.length l)%nat
        then "+" ++ decimal (List.length l - 3) ++ " more"
        else "").
Proof.
  intros E Hlen. unfold SkillsCellRenderer.
  rewrite textContent_Element, E, fold_text_app.
  destruct (Nat.ltb_spec 0 (List.length l)); [| lia].
  unfold mapi. rewrite fold_text_tags. f_equal.
  destruct (3 <? List.length l)%nat; cbn [fold_right]; [| reflexivity].
  rewrite append_empty_r. reflexivity.
Qed.

Lemma SkillsCellRenderer_text_witness :
  textContent (SkillsCellRenderer (H := sampleHost) (VArray scenarioSkills))
  = "Python Programm... SQL Leadership +1 more".
Proof.
  rewrite (SkillsCellRenderer_text sampleHost (VArray scenarioSkills)
             scenarioSkills eq_refl).
  - reflexivity.
  - cbn. lia.
Defined.



(** ** The manager renderer and formatter *)

(** X12: the manager cell shows the same text as the manager formatter
    returns, and that text identifies the value except in one case: a
    manager whose name is the string [None] is shown exactly like a
    missing manager. *)
Theorem manager_text_collision (v1 v2 : option string) :
  textContent (ManagerCellRenderer v1) = managerFormatter v1
  /\ ManagerCellRenderer (Some "None") = ManagerCellRenderer None
  /\ (managerFormatter v1 = managerFormatter v2 ->
      v1 = v2
      \/ (v1 = None /\ v2 = Some "None")
      \/ (v1 = Some "None" /\ v2 = None)).
Proof.
  split; [| split; [reflexivity |]].
  - destruct v1 as [s |]; cbn; [apply append_empty_r | reflexivity].
  - destruct v1 as [s1 |], v2 as [s2 |]; cbn; intros Heq.
    + left. now rewrite Heq.
    + right. right. now rewrite Heq.
    + right. left. now rewrite <- Heq.
    + left. reflexivity.
Qed.

Lemma manager_text_collision_witness :
  Some "None" = None
  \/ (Some "None" = @None string /\ None = Some "None")
  \/ (Some "None" = Some "None" /\ @None string = None).
Proof.
  exact (proj2 (proj2 (manager_text_collision (Some "None") None)) eq_refl).
Defined.

(** ** Column definitions *)

(** X13: [columnDefs] has one column per field of [EmployeeData], in the
    order of the interface; no field key occurs twice, so looking a column
    up by its field key returns that very column; every column is
    sortable, and every column with a cell renderer also has a value
    formatter. *)
Theorem columnDefs_lookup (c : ColDef.t) :
  map ColDef.field columnDefs = employeeFields
  /\ NoDup (map ColDef.field columnDefs)
  /\ (In c columnDefs ->
      getColumn (ColDef.field c) = Some c
      /\ ColDef.sortable c = Some true
      /\ (ColDef.cellRenderer c <> None -> ColDef.valueFormatter c <> None)).
Proof.
  split; [reflexivity |].
  split.
  - cbn. repeat (constructor; [cbn; intuition discriminate |]).
    constructor.
  - intros Hin. cbn in Hin.
    repeat (destruct Hin as [<- | Hin];
            [split; [reflexivity |]; split; [reflexivity |];
             cbn; intros Hr; try discriminate; try (now contradiction Hr) |]).
    contradiction.
Qed.

Lemma columnDefs_lookup_witness :
  exists c : ColDef.t,
    getColumn "skills" = Some c
    /\ ColDef.sortable c = Some true
    /\ ColDef.valueFormatter c = Some FormatSkills.
Proof.
  destruct (getColumn "skills") as [c |] eqn:E; [| discriminate E].
  exists c.
  assert (Hin : In c columnDefs).
  { apply (find_some _ _ E). }
  assert (Hfield : ColDef.field c = "skills").
  { apply String.eqb_eq. apply (find_some _ _ E). }
  destruct (proj2 (proj2 (columnDefs_lookup c)) Hin) as (Hget & Hsort & _).
  rewrite Hfield in Hget.
  split; [reflexivity |]. split; [exact Hsort |].
  injection E as <-. reflexivity.
Defined.

(** X14: every column type a column names is defined in
    [gridOptions.columnTypes], and the type sets the same filter and the
    same sortable flag as the column itself, so applying the type changes
    neither. *)
Theorem columnDefs_types_resolve (c : ColDef.t) (name : string) :
  In c columnDefs ->
  ColDef.type c = Some name ->
  exists t : ColumnType,
    getColumnType name = Some t
    /\ ColDef.filter c = Some (typeFilter t)
    /\ ColDef.sortable c = Some (typeSortable t).
Proof.
  intros Hin Htype. cbn in Hin.
  repeat (destruct Hin as [<- | Hin];
          [cbn in Htype; try discriminate Htype;
           injection Htype as <-; eexists; repeat split |]).
  contradiction.
Qed.

Lemma columnDefs_types_resolve_witness :
  exists (c : ColDef.t) (t : ColumnType),
    getColumn "manager" = Some c
    /\ getColumnType "textColumn" = Some t
    /\ ColDef.filter c = Some (typeFilter t).
Proof.
  destruct (getColumn "manager") as [c |] eqn:E; [| discriminate E].
  assert (Hin : In c columnDefs) by apply (find_some _ _ E).
  assert (Htype : ColDef.type c = Some "textColumn")
    by (injection E as <-; reflexivity).
  destruct (columnDefs_types_resolve c "textColumn" Hin Htype)
    as (t & Hget & Hfilter & _).
  exists c, t. split; [reflexivity |]. split; [exact Hget | exact Hfilter].
Defined.
